(** * Interest discovery: a shallow embedding of
      [src/task/content_generation/interest_discovery.py]

    The module wraps one call to a text-generation model: it renders a fixed
    prompt template with the two request strings, builds the generation
    parameters, calls the model (blocking [discover], awaiting [adiscover]) and
    repackages the response.

    Python values are embedded as follows: [str] is [string], [int] is [Z]
    (unbounded), [float] is a binary64 [float], [Optional[int]] is [option Z],
    a keyword-argument dictionary is a [gmap string string].  Exceptions are
    values of [exn]; a call that may raise and that may log or talk to the
    model is a function from the world to an outcome and a new world. *)

From Stdlib Require Import ZArith String Ascii List DecimalString Lia.
From Corelib Require Import PrimFloat.
From stdpp Require Import gmap strings.
Import ListNotations.

Open Scope string_scope.
Open Scope Z_scope.

Set Warnings "-inexact-float".

(** ** Exceptions *)

Inductive exn : Type :=
| ValueError (msg : string)
| KeyError (key : string)
| IndexError (msg : string)
| Error (cls msg : string)
    (* any other exception class, e.g. what a model client raises *)
| OutsideFragment (field : string)
    (* a replacement field using a conversion, a format specification or an
       attribute/index lookup: [str.format] is not modelled on those *).

(** ** [str.format] with keyword arguments only

    [INTEREST_DISCOVERY_PROMPT_TEMPLATE.format(field_of_topic=..., keywords=...)]
    walks the template from left to right.  Outside a replacement field,
    a doubled brace stands for one brace, a lone closing brace is an error
    and a lone opening brace starts a field, which runs to the next closing
    brace.  The text of the field names the keyword argument to insert; an
    empty or all-digit name asks for a positional argument, and there is none.
    The inserted value is copied as it is: braces inside it are not looked at
    again. *)

Inductive piece : Type :=
| Text (c : ascii)
| Slot (name : string).

Definition is_open (c : ascii) : bool := Ascii.eqb c "{".
Definition is_close (c : ascii) : bool := Ascii.eqb c "}".

(** Characters that start a conversion ([!]), a format specification ([:]) or
    a lookup inside the argument ([.] and [[]). *)
Definition is_special (c : ascii) : bool :=
  Ascii.eqb c "!" || Ascii.eqb c ":" || Ascii.eqb c "." || Ascii.eqb c "[".

(** The markup iterator.  [field = None] while reading literal text and
    [field = Some name] while inside a replacement field whose text so far is
    [name].  Every piece is handed to [h] as soon as it is complete, so the
    first problem from the left is the one reported. *)
Fixpoint markup {A : Type} (h : piece -> exn + A) (field : option string)
    (s : string) : exn + list A :=
  match field, s with
  | None, EmptyString => inr []
  | None, String c s' =>
      if is_open c || is_close c then
        match s' with
        | String c' s'' =>
            if Ascii.eqb c c' then
              match h (Text c) with
              | inl e => inl e
              | inr a =>
                  match markup h None s'' with
                  | inl e => inl e
                  | inr rest => inr (a :: rest)
                  end
              end
            else if is_close c then
              inl (ValueError "Single '}' encountered in format string")
            else markup h (Some "") s'
        | EmptyString =>
            if is_close c then
              inl (ValueError "Single '}' encountered in format string")
            else inl (ValueError "Single '{' encountered in format string")
        end
      else
        match h (Text c) with
        | inl e => inl e
        | inr a =>
            match markup h None s' with
            | inl e => inl e
            | inr rest => inr (a :: rest)
            end
        end
  | Some name, EmptyString =>
      inl (ValueError "expected '}' before end of string")
  | Some name, String c s' =>
      if is_close c then
        match h (Slot name) with
        | inl e => inl e
        | inr a =>
            match markup h None s' with
            | inl e => inl e
            | inr rest => inr (a :: rest)
            end
        end
      else if is_open c then
        inl (ValueError "unexpected '{' in field name")
      else if is_special c then inl (OutsideFragment name)
      else markup h (Some (name ++ String c "")) s'
  end.

Definition is_digit (c : ascii) : bool :=
  (48 <=? Z.of_nat (nat_of_ascii c)) && (Z.of_nat (nat_of_ascii c) <=? 57).

Fixpoint all_digits (s : string) : bool :=
  match s with
  | EmptyString => true
  | String c s' => is_digit c && all_digits s'
  end.

Fixpoint get_integer (acc : Z) (s : string) : Z :=
  match s with
  | EmptyString => acc
  | String c s' => get_integer (10 * acc + (Z.of_nat (nat_of_ascii c) - 48)) s'
  end.

Definition PY_SSIZE_T_MAX : Z := 2 ^ 63 - 1.

(** The argument a field name stands for.  There are no positional
    arguments, so a numbered (or automatically numbered, empty) field is out
    of range; a named field is looked up in the keyword arguments.  Only
    ASCII digits are recognised as digits here. *)
Definition get_field (kwargs : gmap string string) (name : string)
  : exn + string :=
  if all_digits name then
    if PY_SSIZE_T_MAX <? get_integer 0 name then
      inl (ValueError "Too many decimal digits in format string")
    else
      inl (IndexError "Replacement index out of range for positional args tuple")
  else
    match kwargs !! name with
    | Some v => inr v
    | None => inl (KeyError name)
    end.

Definition render_piece (kwargs : gmap string string) (p : piece)
  : exn + string :=
  match p with
  | Text c => inr (String c "")
  | Slot name => get_field kwargs name
  end.

Definition join (l : list string) : string := fold_right String.append "" l.

Definition format (template : string) (kwargs : gmap string string)
  : exn + string :=
  match markup (render_piece kwargs) None template with
  | inl e => inl e
  | inr parts => inr (join parts)
  end.

(** The pieces of a template, without rendering them
    (what [string.Formatter().parse] lists). *)
Definition template_pieces (template : string) : exn + list piece :=
  markup (fun p => inr p) None template.

(** ** Containers

    [InterestDiscoveryParams] and [InterestDiscoveryResult] derive from
    [DataCore] and declare their fields with [Field(default=...,
    description=...)]: a type, sometimes a default, and no bound. *)

(** Modelled from the spec: [DataCore] ([src.core]) is outside this file; the
    spec calls its subclasses validated bundles that are built once and never
    changed.  A container is a record of its declared fields, built from the
    keyword arguments given, each of the declared type. *)
Module InterestDiscoveryParams.
Record t : Type := mk {
  field_of_topic : string;
  keywords : string;
  max_tokens : option Z;
  temperature : float
}.

Definition default_max_tokens : option Z := Some 4000.
Definition default_temperature : float := 0.7%float.

(** The constructor call.  [field_of_topic] and [keywords] are required;
    for the other two [None] means that the keyword argument is left out
    ([max_tokens = Some None] passes Python's [None]). *)
Definition new (field_of_topic keywords : string)
    (max_tokens : option (option Z)) (temperature : option float) : t :=
  {| field_of_topic := field_of_topic;
     keywords := keywords;
     max_tokens := default default_max_tokens max_tokens;
     temperature := default default_temperature temperature |}.
End InterestDiscoveryParams.

Module InterestDiscoveryResult.
Record t : Type := mk {
  field_of_topic : string;
  keywords : string;
  interest_analysis : string;
  input_tokens : Z;
  output_tokens : Z
}.

(** All five fields are required. *)
Definition new (field_of_topic keywords interest_analysis : string)
    (input_tokens output_tokens : Z) : t :=
  {| field_of_topic := field_of_topic;
     keywords := keywords;
     interest_analysis := interest_analysis;
     input_tokens := input_tokens;
     output_tokens := output_tokens |}.
End InterestDiscoveryResult.

(** Modelled from the spec: [LmGentxtParams] ([src.lib.model.txt]) is outside
    this file; the spec gives the request of the model interface as
    [{systemPrompt: string, prompt: string, maxNewTokens: optional integer,
    temperature: float}]. *)
Module LmGentxtParams.
Record t : Type := mk {
  system_prompt : string;
  prompt : string;
  max_new_tokens : option Z;
  temperature : float
}.
End LmGentxtParams.

(** Modelled from the spec: [LmGentxtResult] ([src.lib.model.txt]) is outside
    this file; the spec gives the response of the model interface as
    [{outputText: string, inputTokens: integer, outputTokens: integer}]. *)
Module LmGentxtResult.
Record t : Type := mk {
  output : string;
  input_tokens : Z;
  output_tokens : Z
}.
End LmGentxtResult.

(** ** The world: what a call can observe and change

    A call leaves a trace of what it did to its collaborators, in order: the
    events it logged and the requests it made to the model.  The model has a
    state of its own, of a type [S] that the component knows nothing about. *)

Inductive level : Type := INFO | SUCCESS.

Inductive operation : Type := Gentxt | Agentxt.

Inductive event : Type :=
| Logged (component : string) (lvl : level) (message : string)
| Called (op : operation) (request : LmGentxtParams.t).

Record World (S : Type) : Type := mkWorld {
  trace : list event;
  model_state : S
}.
Arguments mkWorld {S} _ _.
Arguments trace {S} _.
Arguments model_state {S} _.

(** Modelled from the spec: [LmBasis] ([src.lib.model.txt]) is outside this
    file; the spec describes it as a capability with a blocking and a
    non-blocking generation operation, either of which returns a response or
    raises.  Awaiting the non-blocking operation is modelled by its outcome;
    what else runs while the caller is suspended is not part of the model. *)
Class LmBasis (S : Type) : Type := {
  gentxt : LmGentxtParams.t -> S -> (exn + LmGentxtResult.t) * S;
  agentxt : LmGentxtParams.t -> S -> (exn + LmGentxtResult.t) * S
}.

(** Computations that may raise, log and call the model. *)
Definition M (S A : Type) : Type := World S -> (exn + A) * World S.

Definition ret {S A} (a : A) : M S A := fun w => (inr a, w).

Definition raise {S A} (e : exn) : M S A := fun w => (inl e, w).

Definition bind {S A B} (c : M S A) (k : A -> M S B) : M S B :=
  fun w =>
    match c w with
    | (inl e, w') => (inl e, w')
    | (inr a, w') => k a w'
    end.

Definition lift {S A} (r : exn + A) : M S A :=
  match r with
  | inl e => raise e
  | inr a => ret a
  end.

Definition emit {S} (ev : event) : M S unit :=
  fun w => (inr tt, mkWorld (trace w ++ [ev]) (model_state w)).

Declare Scope py_scope.
Delimit Scope py_scope with py.
Notation "x <- c ;; k" := (bind c (fun x => k))
  (at level 100, c at next level, right associativity) : py_scope.
Notation "c ;; k" := (bind c (fun _ => k))
  (at level 100, right associativity) : py_scope.

(** The method of the model that an operation names. *)
Definition invoke {S} (m : LmBasis S) (op : operation)
  : LmGentxtParams.t -> S -> (exn + LmGentxtResult.t) * S :=
  match op with
  | Gentxt => @gentxt S m
  | Agentxt => @agentxt S m
  end.

(** Calling the model: the request is recorded, then the method runs on the
    model's state. *)
Definition call {S} (m : LmBasis S) (op : operation)
    (request : LmGentxtParams.t) : M S LmGentxtResult.t :=
  fun w =>
    let '(r, s') := invoke m op request (model_state w) in
    (r, mkWorld (trace w ++ [Called op request]) s').

(** [str(n)] for an [int]. *)
Definition str_of_int (n : Z) : string := NilZero.string_of_int (Z.to_int n).

(** ** The component *)

(** [InterestDiscovery(model, log_name)]: the model and the logger bound to
    the component name. *)
Record InterestDiscovery (S : Type) : Type := mkInterestDiscovery {
  model : LmBasis S;
  logger : string
}.
Arguments mkInterestDiscovery {S} _ _.
Arguments model {S} _.
Arguments logger {S} _.

(** [__init__]; [log_name = None] leaves the argument out. *)
Definition init {S} (model : LmBasis S) (log_name : option string)
  : InterestDiscovery S :=
  mkInterestDiscovery model (default "interest_discovery" log_name).

(** Modelled from the spec: the logger ([src.log]) is outside this file; the
    spec describes it as a sink for leveled events tagged with a component
    name, observational only.  Logging appends an event to the trace. *)
Definition logger_info {S} (self : InterestDiscovery S) (message : string)
  : M S unit :=
  emit (Logged (logger self) INFO message).

Definition logger_success {S} (self : InterestDiscovery S) (message : string)
  : M S unit :=
  emit (Logged (logger self) SUCCESS message).

Section Prompts.

(** The two constants imported from [.prompts], which is outside this
    file: they are parameters of the development. *)
Variable INTEREST_DISCOVERY_PROMPT_TEMPLATE : string.
Variable INTEREST_DISCOVERY_SYSTEM_PROMPT : string.

Context {S : Type}.

Local Open Scope py_scope.

Definition discover (self : InterestDiscovery S)
    (params : InterestDiscoveryParams.t) : M S InterestDiscoveryResult.t :=
  logger_info self
    ("Starting interest discovery for field: "
       ++ InterestDiscoveryParams.field_of_topic params
       ++ ", keywords: " ++ InterestDiscoveryParams.keywords params) ;;
  prompt <- lift (format INTEREST_DISCOVERY_PROMPT_TEMPLATE
                    (<["field_of_topic" :=
                         InterestDiscoveryParams.field_of_topic params]>
                       (<["keywords" :=
                            InterestDiscoveryParams.keywords params]> ∅))) ;;
  let llm_params :=
    {| LmGentxtParams.system_prompt := INTEREST_DISCOVERY_SYSTEM_PROMPT;
       LmGentxtParams.prompt := prompt;
       LmGentxtParams.max_new_tokens :=
         InterestDiscoveryParams.max_tokens params;
       LmGentxtParams.temperature :=
         InterestDiscoveryParams.temperature params |} in
  llm_result <- call (model self) Gentxt llm_params ;;
  let result :=
    InterestDiscoveryResult.new
      (InterestDiscoveryParams.field_of_topic params)
      (InterestDiscoveryParams.keywords params)
      (LmGentxtResult.output llm_result)
      (LmGentxtResult.input_tokens llm_result)
      (LmGentxtResult.output_tokens llm_result) in
  logger_success self
    ("Interest discovery completed for: "
       ++ InterestDiscoveryParams.field_of_topic params) ;;
  logger_info self
    ("Generated "
       ++ str_of_int (InterestDiscoveryResult.output_tokens result)
       ++ " tokens of analysis") ;;
  ret result.

Definition adiscover (self : InterestDiscovery S)
    (params : InterestDiscoveryParams.t) : M S InterestDiscoveryResult.t :=
  logger_info self
    ("Starting async interest discovery for field: "
       ++ InterestDiscoveryParams.field_of_topic params
       ++ ", keywords: " ++ InterestDiscoveryParams.keywords params) ;;
  prompt <- lift (format INTEREST_DISCOVERY_PROMPT_TEMPLATE
                    (<["field_of_topic" :=
                         InterestDiscoveryParams.field_of_topic params]>
                       (<["keywords" :=
                            InterestDiscoveryParams.keywords params]> ∅))) ;;
  let llm_params :=
    {| LmGentxtParams.system_prompt := INTEREST_DISCOVERY_SYSTEM_PROMPT;
       LmGentxtParams.prompt := prompt;
       LmGentxtParams.max_new_tokens :=
         InterestDiscoveryParams.max_tokens params;
       LmGentxtParams.temperature :=
         InterestDiscoveryParams.temperature params |} in
  llm_result <- call (model self) Agentxt llm_params ;;
  let result :=
    InterestDiscoveryResult.new
      (InterestDiscoveryParams.field_of_topic params)
      (InterestDiscoveryParams.keywords params)
      (LmGentxtResult.output llm_result)
      (LmGentxtResult.input_tokens llm_result)
      (LmGentxtResult.output_tokens llm_result) in
  logger_success self
    ("Async interest discovery completed for: "
       ++ InterestDiscoveryParams.field_of_topic params) ;;
  logger_info self
    ("Generated "
       ++ str_of_int (InterestDiscoveryResult.output_tokens result)
       ++ " tokens of analysis") ;;
  ret result.

End Prompts.

(** ** Vocabulary of the statements *)

(** The entry point that goes with a model operation: [discover] calls
    [gentxt], [adiscover] awaits [agentxt]. *)
Definition run {S} (op : operation) (template system : string)
  : InterestDiscovery S -> InterestDiscoveryParams.t
    -> M S InterestDiscoveryResult.t :=
  match op with
  | Gentxt => discover template system
  | Agentxt => adiscover template system
  end.

(** The requests made to the model, in order. *)
Fixpoint requests (tr : list event) : list (operation * LmGentxtParams.t) :=
  match tr with
  | [] => []
  | Called op q :: tr' => (op, q) :: requests tr'
  | Logged _ _ _ :: tr' => requests tr'
  end.

(** The keyword arguments both entry points give to [format]. *)
Definition format_kwargs (field_of_topic keywords : string)
  : gmap string string :=
  <["field_of_topic" := field_of_topic]> (<["keywords" := keywords]> ∅).

(** Modelled from the spec: the template constant is outside this file; the
    spec describes it as a template with two named substitution slots, one
    for the field of topic and one for the keywords.  A template is
    well formed when it splits into pieces and names no other slot. *)
Definition known_slot (p : piece) : bool :=
  match p with
  | Text _ => true
  | Slot name => String.eqb name "field_of_topic" || String.eqb name "keywords"
  end.

Definition well_formed (template : string) : bool :=
  match template_pieces template with
  | inr ps => forallb known_slot ps
  | inl _ => false
  end.

(** What a piece of a well-formed template stands for once the two strings
    are put into the slots. *)
Definition substitute (field_of_topic keywords : string) (p : piece)
  : string :=
  match p with
  | Text c => String c ""
  | Slot name =>
      if String.eqb name "field_of_topic" then field_of_topic else keywords
  end.

(** The generation parameters built from a request and a rendered prompt. *)
Definition request_for (system : string) (params : InterestDiscoveryParams.t)
    (prompt : string) : LmGentxtParams.t :=
  {| LmGentxtParams.system_prompt := system;
     LmGentxtParams.prompt := prompt;
     LmGentxtParams.max_new_tokens := InterestDiscoveryParams.max_tokens params;
     LmGentxtParams.temperature := InterestDiscoveryParams.temperature params |}.

(** The result that echoes a request and carries a response. *)
Definition result_for (params : InterestDiscoveryParams.t)
    (llm_result : LmGentxtResult.t) : InterestDiscoveryResult.t :=
  {| InterestDiscoveryResult.field_of_topic :=
       InterestDiscoveryParams.field_of_topic params;
     InterestDiscoveryResult.keywords :=
       InterestDiscoveryParams.keywords params;
     InterestDiscoveryResult.interest_analysis :=
       LmGentxtResult.output llm_result;
     InterestDiscoveryResult.input_tokens :=
       LmGentxtResult.input_tokens llm_result;
     InterestDiscoveryResult.output_tokens :=
       LmGentxtResult.output_tokens llm_result |}.

(** A handler that accepts every piece of the template renders the
    template piece by piece. *)
Definition follows {A} (h : piece -> exn + A) (f : piece -> A)
    (field : option string) (s : string) : Prop :=
  forall ps,
    markup (fun p => inr p) field s = inr ps ->
    (forall p, In p ps -> h p = inr (f p)) ->
    markup h field s = inr (map f ps).

(** C7 as the spec words it: a request whose [max_tokens] is present has a
    positive [max_tokens]. *)
Definition max_tokens_positive (params : InterestDiscoveryParams.t) : Prop :=
  forall n, InterestDiscoveryParams.max_tokens params = Some n -> 0 < n.

(** C8 as the spec words it: a result's token counts are not negative. *)
Definition token_counts_nonnegative (r : InterestDiscoveryResult.t) : Prop :=
  0 <= InterestDiscoveryResult.input_tokens r
  /\ 0 <= InterestDiscoveryResult.output_tokens r.

(** A stub model: both operations give the same fixed outcome and keep no
    state. *)
Definition stub (r : exn + LmGentxtResult.t) : LmBasis unit :=
  {| gentxt := fun _ s => (r, s); agentxt := fun _ s => (r, s) |}.

Definition sample_template : string :=
  "Field: {field_of_topic}. Keywords: {keywords}. Use {{braces}} freely.".

Definition sample_system : string := "You find questions that draw attention.".

Definition start : World unit := mkWorld [] tt.

(** The scenario of the spec: the request, the response of the stub and the
    result expected from [discover]. *)
Definition mars_params : InterestDiscoveryParams.t :=
  InterestDiscoveryParams.new "space exploration" "mars colonization risks"
    (Some (Some 4000)) (Some 0.7%float).

Definition mars_response : LmGentxtResult.t :=
  {| LmGentxtResult.output := "Is Mars colonization doomed?";
     LmGentxtResult.input_tokens := 120;
     LmGentxtResult.output_tokens := 45 |}.

Definition mars_result : InterestDiscoveryResult.t :=
  {| InterestDiscoveryResult.field_of_topic := "space exploration";
     InterestDiscoveryResult.keywords := "mars colonization risks";
     InterestDiscoveryResult.interest_analysis := "Is Mars colonization doomed?";
     InterestDiscoveryResult.input_tokens := 120;
     InterestDiscoveryResult.output_tokens := 45 |}.

Definition mars_component : InterestDiscovery unit :=
  init (stub (inr mars_response)) None.

(** A response with negative counts, which the response type allows. *)
Definition negative_response : LmGentxtResult.t :=
  {| LmGentxtResult.output := "Is Mars colonization doomed?";
     LmGentxtResult.input_tokens := -1;
     LmGentxtResult.output_tokens := -2 |}.

(** A component whose model always fails in the same way. *)
Definition quota_error : exn := Error "QuotaExceeded" "rate limit reached".

Definition failing_component : InterestDiscovery unit :=
  init (stub (inl quota_error)) None.


(** A template without any brace. *)
Fixpoint brace_free (s : string) : bool :=
  match s with
  | EmptyString => true
  | String c s' => negb (is_open c || is_close c) && brace_free s'
  end.



(** ** The definitions at work *)

Example format_simple :
  format "On {field_of_topic}: {keywords}?"
         (<["field_of_topic" := "space"]> (<["keywords" := "mars"]> ∅))
  = inr "On space: mars?".
Proof. vm_compute. reflexivity. Qed.

Example format_escapes :
  format "{{{keywords}}}" (<["keywords" := "a{b}"]> ∅) = inr "{a{b}}".
Proof. vm_compute. reflexivity. Qed.

Example format_missing_key :
  format "{topic} }" (<["keywords" := "mars"]> ∅) = inl (KeyError "topic").
Proof. vm_compute. reflexivity. Qed.

Example format_positional :
  format "{} and {0}" (<["keywords" := "mars"]> ∅)
  = inl (IndexError "Replacement index out of range for positional args tuple").
Proof. vm_compute. reflexivity. Qed.

Example format_single_close :
  format "a } b" ∅ = inl (ValueError "Single '}' encountered in format string").
Proof. vm_compute. reflexivity. Qed.

Example format_unterminated :
  format "a {keywords" (<["keywords" := "mars"]> ∅)
  = inl (ValueError "expected '}' before end of string").
Proof. vm_compute. reflexivity. Qed.


(** The whole trace of the scenario of the spec. *)
Example mars_trace :
  discover sample_template sample_system mars_component mars_params start
  = (inr mars_result,
     mkWorld
       [Logged "interest_discovery" INFO
          "Starting interest discovery for field: space exploration, keywords: mars colonization risks";
        Called Gentxt
          {| LmGentxtParams.system_prompt := sample_system;
             LmGentxtParams.prompt :=
               "Field: space exploration. Keywords: mars colonization risks. Use {braces} freely.";
             LmGentxtParams.max_new_tokens := Some 4000;
             LmGentxtParams.temperature := 0.7%float |};
        Logged "interest_discovery" SUCCESS
          "Interest discovery completed for: space exploration";
        Logged "interest_discovery" INFO "Generated 45 tokens of analysis"]
       tt).
Proof. vm_compute. reflexivity. Qed.

(** A template with a slot that is never filled: the call raises before the
    model is reached. *)
Example unknown_slot_raises :
  adiscover "{topic}: {keywords}" sample_system mars_component mars_params
    start
  = (inl (KeyError "topic"),
     mkWorld
       [Logged "interest_discovery" INFO
          "Starting async interest discovery for field: space exploration, keywords: mars colonization risks"]
       tt).
Proof. vm_compute. reflexivity. Qed.

(** ** Facts about [format] *)

Lemma markup_text {A} (h : piece -> exn + A) c s' :
  markup h None (String c s') =
  if is_open c || is_close c then
    match s' with
    | String c' s'' =>
        if Ascii.eqb c c' then
          match h (Text c) with
          | inl e => inl e
          | inr a =>
              match markup h None s'' with
              | inl e => inl e
              | inr rest => inr (a :: rest)
              end
          end
        else if is_close c then
          inl (ValueError "Single '}' encountered in format string")
        else markup h (Some "") s'
    | EmptyString =>
        if is_close c then
          inl (ValueError "Single '}' encountered in format string")
        else inl (ValueError "Single '{' encountered in format string")
    end
  else
    match h (Text c) with
    | inl e => inl e
    | inr a =>
        match markup h None s' with
        | inl e => inl e
        | inr rest => inr (a :: rest)
        end
    end.
Proof. destruct s'; reflexivity. Qed.

Lemma markup_field {A} (h : piece -> exn + A) name c s' :
  markup h (Some name) (String c s') =
  if is_close c then
    match h (Slot name) with
    | inl e => inl e
    | inr a =>
        match markup h None s' with
        | inl e => inl e
        | inr rest => inr (a :: rest)
        end
    end
  else if is_open c then inl (ValueError "unexpected '{' in field name")
  else if is_special c then inl (OutsideFragment name)
  else markup h (Some (name ++ String c "")) s'.
Proof. reflexivity. Qed.

Lemma follows_cons {A} (h : piece -> exn + A) f p s ps :
  follows h f None s ->
  match markup (fun p => inr p) None s with
  | inl e => inl e
  | inr rest => inr (p :: rest)
  end = inr ps ->
  (forall p, In p ps -> h p = inr (f p)) ->
  match h p with
  | inl e => inl e
  | inr a =>
      match markup h None s with
      | inl e => inl e
      | inr rest => inr (a :: rest)
      end
  end = inr (map f ps).
Proof.
  intros IH Hps Hh.
  destruct (markup (fun p => inr p) None s) as [e | rest] eqn:E; [discriminate |].
  injection Hps as <-.
  rewrite (Hh p (or_introl eq_refl)).
  rewrite (IH rest E (fun q Hq => Hh q (or_intror Hq))).
  reflexivity.
Qed.

Lemma markup_follows {A} (h : piece -> exn + A) f s :
  (forall field, follows h f field s)
  /\ (forall c field, follows h f field (String c s)).
Proof.
  induction s as [| a s [IH1 IH2]].
  - split.
    + intros [name |] ps H _; simpl in H; [discriminate |].
      injection H as <-. reflexivity.
    + intros c [name |] ps H Hh.
      * rewrite markup_field; rewrite markup_field in H.
        destruct (is_close c).
        -- apply (follows_cons h f (Slot name) ""); auto.
           intros ps' H' _. simpl in H'. injection H' as <-. reflexivity.
        -- destruct (is_open c); [discriminate |].
           destruct (is_special c); [discriminate |].
           simpl in H. discriminate.
      * rewrite markup_text; rewrite markup_text in H.
        destruct (is_open c || is_close c).
        -- destruct (is_close c); discriminate.
        -- apply (follows_cons h f (Text c) ""); auto.
           intros ps' H' _. simpl in H'. injection H' as <-. reflexivity.
  - split; [intros field; apply IH2 |].
    intros c [name |] ps H Hh.
    + rewrite markup_field; rewrite markup_field in H.
      destruct (is_close c).
      * apply (follows_cons h f (Slot name) (String a s)); auto.
      * destruct (is_open c); [discriminate |].
        destruct (is_special c); [discriminate |].
        apply IH2; assumption.
    + rewrite markup_text; rewrite markup_text in H.
      destruct (is_open c || is_close c).
      * destruct (Ascii.eqb c a).
        -- apply (follows_cons h f (Text c) s); auto.
        -- destruct (is_close c); [discriminate |].
           apply IH2; assumption.
      * apply (follows_cons h f (Text c) (String a s)); auto.
Qed.

Lemma format_pieces template kwargs f ps :
  template_pieces template = inr ps ->
  (forall p, In p ps -> render_piece kwargs p = inr (f p)) ->
  format template kwargs = inr (join (map f ps)).
Proof.
  intros Hps Hh. unfold format.
  destruct (markup_follows (render_piece kwargs) f template) as [H _].
  rewrite (H None ps Hps Hh). reflexivity.
Qed.

Lemma render_known field_of_topic keywords p :
  known_slot p = true ->
  render_piece (format_kwargs field_of_topic keywords) p
  = inr (substitute field_of_topic keywords p).
Proof.
  destruct p as [c | name]; [reflexivity |].
  cbn [known_slot render_piece substitute]. intros H.
  apply orb_true_iff in H as [H | H]; apply String.eqb_eq in H; subst name.
  - unfold get_field, format_kwargs. cbn [all_digits is_digit andb].
    replace (all_digits "field_of_topic") with false by reflexivity.
    rewrite lookup_insert_eq. reflexivity.
  - unfold get_field, format_kwargs.
    replace (all_digits "keywords") with false by reflexivity.
    rewrite lookup_insert_ne by discriminate.
    rewrite lookup_insert_eq. reflexivity.
Qed.

Lemma format_well_formed template field_of_topic keywords ps :
  template_pieces template = inr ps ->
  forallb known_slot ps = true ->
  format template (format_kwargs field_of_topic keywords)
  = inr (join (map (substitute field_of_topic keywords) ps)).
Proof.
  intros Hps Hk. apply format_pieces; [assumption |].
  intros p Hp. apply render_known.
  rewrite forallb_forall in Hk. apply Hk, Hp.
Qed.

Lemma well_formed_pieces template :
  well_formed template = true ->
  exists ps, template_pieces template = inr ps /\ forallb known_slot ps = true.
Proof.
  unfold well_formed. destruct (template_pieces template) as [e | ps].
  - discriminate.
  - intros H. exists ps. split; [reflexivity | assumption].
Qed.

Lemma append_assoc (a b c : string) : ((a ++ b) ++ c = a ++ (b ++ c))%string.
Proof.
  induction a as [| x a IH]; [reflexivity |].
  change (String x ((a ++ b) ++ c) = String x (a ++ (b ++ c)))%string.
  rewrite IH. reflexivity.
Qed.

Lemma join_app l1 l2 : join (l1 ++ l2) = (join l1 ++ join l2)%string.
Proof.
  induction l1 as [| x l1 IH]; [reflexivity |].
  change (join ((x :: l1) ++ l2)) with (x ++ join (l1 ++ l2))%string.
  change (join (x :: l1)) with (x ++ join l1)%string.
  rewrite IH, append_assoc. reflexivity.
Qed.

Lemma requests_app tr1 tr2 :
  requests (tr1 ++ tr2) = (requests tr1 ++ requests tr2)%list.
Proof.
  induction tr1 as [| [c l m | op q] tr1 IH]; cbn [requests app];
    [reflexivity | assumption | f_equal; assumption].
Qed.

(** ** One call, step by step

    Both entry points log a start message and render the prompt; if that
    raises, the call ends there.  Otherwise the model is called once with the
    request built from the prompt; an error of the model ends the call, a
    response is wrapped and two more messages are logged. *)
Lemma run_cases {S} op template system (self : InterestDiscovery S) params w :
  exists m1 : string,
    match format template
            (format_kwargs (InterestDiscoveryParams.field_of_topic params)
                           (InterestDiscoveryParams.keywords params)) with
    | inl e =>
        run op template system self params w
        = (inl e,
           mkWorld (trace w ++ [Logged (logger self) INFO m1]) (model_state w))
    | inr prompt =>
        let q := request_for system params prompt in
        match invoke (model self) op q (model_state w) with
        | (inl e, s') =>
            run op template system self params w
            = (inl e,
               mkWorld (trace w ++ [Logged (logger self) INFO m1; Called op q])
                       s')
        | (inr llm_result, s') =>
            exists m2 m3 : string,
              run op template system self params w
              = (inr (result_for params llm_result),
                 mkWorld (trace w ++ [Logged (logger self) INFO m1;
                                      Called op q;
                                      Logged (logger self) SUCCESS m2;
                                      Logged (logger self) INFO m3])
                         s')
        end
    end.
Proof.
  destruct op; eexists; cbn [run];
    [unfold discover | unfold adiscover];
    unfold bind, logger_info, logger_success, emit, lift, call, raise, ret,
      format_kwargs, request_for, result_for, InterestDiscoveryResult.new;
    cbn [trace model_state];
    (destruct (format _ _) as [e | prompt]; [reflexivity |]);
    cbn [trace model_state];
    (destruct (invoke _ _ _ _) as [[e | llm_result] s'];
      [rewrite <- !app_assoc; reflexivity |]);
    cbn [trace model_state]; do 2 eexists;
    rewrite <- !app_assoc; reflexivity.
Qed.

Ltac split_run op template system self params w :=
  let m1 := fresh "m1" in
  let Hrun := fresh "Hrun" in
  destruct (run_cases op template system self params w) as [m1 Hrun];
  cbv zeta in Hrun.

(** ** The claims *)

(** C1 (echo invariant).  Whenever [discover] or [adiscover] returns a
    result, the result's [field_of_topic] and [keywords] are the request's,
    unchanged. *)
Theorem echo_invariant {S} template system (self : InterestDiscovery S)
    params w r w' :
  discover template system self params w = (inr r, w')
  \/ adiscover template system self params w = (inr r, w') ->
  InterestDiscoveryResult.field_of_topic r
  = InterestDiscoveryParams.field_of_topic params
  /\ InterestDiscoveryResult.keywords r
     = InterestDiscoveryParams.keywords params.
Proof.
  intros H.
  assert (exists op, run op template system self params w = (inr r, w'))
    as [op Hop].
  { destruct H as [H | H]; [exists Gentxt | exists Agentxt]; exact H. }
  split_run op template system self params w.
  destruct (format _ _) as [e | prompt]; [congruence |].
  destruct (invoke _ _ _ _) as [[e | llm_result] s'']; [congruence |].
  destruct Hrun as (m2 & m3 & Hrun). rewrite Hrun in Hop.
  injection Hop as <- _. split; reflexivity.
Qed.

Lemma echo_invariant_witness :
  (discover sample_template sample_system mars_component mars_params start
   = (inr mars_result,
      snd (discover sample_template sample_system mars_component mars_params
             start))
   \/ adiscover sample_template sample_system mars_component mars_params start
      = (inr mars_result,
         snd (discover sample_template sample_system mars_component
                mars_params start)))
  /\ (InterestDiscoveryResult.field_of_topic mars_result
      = InterestDiscoveryParams.field_of_topic mars_params
      /\ InterestDiscoveryResult.keywords mars_result
         = InterestDiscoveryParams.keywords mars_params).
Proof.
  assert (discover sample_template sample_system mars_component mars_params
            start
          = (inr mars_result,
             snd (discover sample_template sample_system mars_component
                    mars_params start))) as H
    by (vm_compute; reflexivity).
  split; [left; exact H |].
  apply (echo_invariant sample_template sample_system mars_component
           mars_params start mars_result _ (or_introl H)).
Defined.

(** C2 (pass-through).  Whenever [discover] or [adiscover] returns a result,
    the prompt was rendered, the model was called once, it answered with a
    response, and the result carries that response's [input_tokens],
    [output_tokens] and [output] as they are. *)
Theorem token_pass_through {S} op template system (self : InterestDiscovery S)
    params w r w' :
  run op template system self params w = (inr r, w') ->
  exists prompt llm_result,
    format template
      (format_kwargs (InterestDiscoveryParams.field_of_topic params)
                     (InterestDiscoveryParams.keywords params))
    = inr prompt
    /\ invoke (model self) op (request_for system params prompt)
         (model_state w)
       = (inr llm_result, model_state w')
    /\ requests (trace w')
       = (requests (trace w) ++ [(op, request_for system params prompt)])%list
    /\ InterestDiscoveryResult.input_tokens r
       = LmGentxtResult.input_tokens llm_result
    /\ InterestDiscoveryResult.output_tokens r
       = LmGentxtResult.output_tokens llm_result
    /\ InterestDiscoveryResult.interest_analysis r
       = LmGentxtResult.output llm_result.
Proof.
  intros Hop.
  split_run op template system self params w.
  destruct (format _ _) as [e | prompt]; [congruence |].
  destruct (invoke _ _ _ _) as [[e | llm_result] s''] eqn:Hcall; [congruence |].
  destruct Hrun as (m2 & m3 & Hrun). rewrite Hrun in Hop.
  injection Hop as <- <-.
  exists prompt, llm_result. cbn [trace model_state].
  rewrite requests_app. cbn [requests].
  split; [reflexivity |]. split; [exact Hcall |].
  repeat split; reflexivity.
Qed.

Lemma token_pass_through_witness :
  run Agentxt sample_template sample_system mars_component mars_params start
  = (inr mars_result,
     snd (adiscover sample_template sample_system mars_component mars_params
            start))
  /\ exists prompt llm_result,
      format sample_template
        (format_kwargs "space exploration" "mars colonization risks")
      = inr prompt
      /\ invoke (stub (inr mars_response)) Agentxt
           (request_for sample_system mars_params prompt) tt
         = (inr llm_result, tt)
      /\ requests
           (trace (snd (adiscover sample_template sample_system
                          mars_component mars_params start)))
         = [(Agentxt, request_for sample_system mars_params prompt)]
      /\ 120 = LmGentxtResult.input_tokens llm_result
      /\ 45 = LmGentxtResult.output_tokens llm_result
      /\ "Is Mars colonization doomed?" = LmGentxtResult.output llm_result.
Proof.
  assert (run Agentxt sample_template sample_system mars_component mars_params
            start
          = (inr mars_result,
             snd (adiscover sample_template sample_system mars_component
                    mars_params start))) as H
    by (vm_compute; reflexivity).
  split; [exact H |].
  exact (token_pass_through Agentxt sample_template sample_system
           mars_component mars_params start mars_result _ H).
Defined.

(** C3 (prompt rendering).  For a template that splits into pieces naming
    only the two slots, [discover] and [adiscover] make one request to the
    model; its prompt is the template with the request's [field_of_topic] and
    [keywords] put into the slots, so that at every occurrence of a slot the
    prompt reads: what comes before, the string, what comes after; and its
    system prompt is the fixed system prompt. *)
Theorem prompt_rendering {S} op template system (self : InterestDiscovery S)
    params w ps :
  template_pieces template = inr ps ->
  forallb known_slot ps = true ->
  let topic := InterestDiscoveryParams.field_of_topic params in
  let words := InterestDiscoveryParams.keywords params in
  let fill := substitute topic words in
  exists q,
    requests (trace (snd (run op template system self params w)))
    = (requests (trace w) ++ [(op, q)])%list
    /\ LmGentxtParams.system_prompt q = system
    /\ LmGentxtParams.prompt q = join (map fill ps)
    /\ (forall before after,
          ps = (before ++ Slot "field_of_topic" :: after)%list ->
          LmGentxtParams.prompt q
          = (join (map fill before) ++ topic ++ join (map fill after))%string)
    /\ (forall before after,
          ps = (before ++ Slot "keywords" :: after)%list ->
          LmGentxtParams.prompt q
          = (join (map fill before) ++ words ++ join (map fill after))%string).
Proof.
  intros Hps Hk topic words fill.
  pose proof (format_well_formed template topic words ps Hps Hk) as Hf.
  split_run op template system self params w.
  fold topic words in Hrun. rewrite Hf in Hrun. fold fill in Hrun.
  exists (request_for system params (join (map fill ps))).
  split; [| split; [reflexivity | split; [reflexivity |]]].
  - destruct (invoke _ _ _ _) as [[e | llm_result] s''].
    + rewrite Hrun. cbn [snd trace]. rewrite requests_app. reflexivity.
    + destruct Hrun as (m2 & m3 & Hrun).
      rewrite Hrun. cbn [snd trace]. rewrite requests_app. reflexivity.
  - cbn [request_for LmGentxtParams.prompt].
    split; intros before after ->;
      rewrite map_app, join_app; cbn [map];
      change (join (?x :: ?l)) with (x ++ join l)%string;
      reflexivity.
Qed.

Lemma prompt_rendering_witness :
  template_pieces "About {field_of_topic}: {keywords}"
  = inr [Text "A"; Text "b"; Text "o"; Text "u"; Text "t"; Text " ";
         Slot "field_of_topic"; Text ":"; Text " "; Slot "keywords"]
  /\ exists q,
      requests
        (trace (snd (run Gentxt "About {field_of_topic}: {keywords}"
                       sample_system mars_component mars_params start)))
      = [(Gentxt, q)]
      /\ LmGentxtParams.system_prompt q = sample_system
      /\ LmGentxtParams.prompt q
         = "About space exploration: mars colonization risks".
Proof.
  split; [vm_compute; reflexivity |].
  destruct (prompt_rendering Gentxt "About {field_of_topic}: {keywords}"
              sample_system mars_component mars_params start
              [Text "A"; Text "b"; Text "o"; Text "u"; Text "t"; Text " ";
               Slot "field_of_topic"; Text ":"; Text " "; Slot "keywords"])
    as (q & Hreq & Hsys & Hprompt & _).
  - vm_compute; reflexivity.
  - vm_compute; reflexivity.
  - exists q. split; [exact Hreq | split; [exact Hsys | exact Hprompt]].
Defined.

(** C4 (sync/async equivalence).  When the model's awaited operation gives
    the same outcome as its blocking one on every request and state,
    [adiscover] and [discover] give the same outcome (the same result or the
    same error), send the model the same request and leave the model in the
    same state. *)
Theorem sync_async_equivalence {S} template system (self : InterestDiscovery S)
    params w :
  (forall q s, @agentxt S (model self) q s = @gentxt S (model self) q s) ->
  fst (adiscover template system self params w)
  = fst (discover template system self params w)
  /\ model_state (snd (adiscover template system self params w))
     = model_state (snd (discover template system self params w))
  /\ map snd (requests (trace (snd (adiscover template system self params w))))
     = map snd (requests (trace (snd (discover template system self params w)))).
Proof.
  intros Hsame.
  change (adiscover template system self params w)
    with (run Agentxt template system self params w).
  change (discover template system self params w)
    with (run Gentxt template system self params w).
  destruct (run_cases Agentxt template system self params w) as [a1 Ha].
  destruct (run_cases Gentxt template system self params w) as [b1 Hb].
  cbv zeta in Ha, Hb.
  destruct (format _ _) as [e | prompt].
  - rewrite Ha, Hb. cbn [fst snd trace model_state].
    rewrite !requests_app. cbn [requests]. repeat split; reflexivity.
  - cbn [invoke] in Ha, Hb. rewrite Hsame in Ha.
    destruct (gentxt _ _) as [[e | llm_result] s''].
    + rewrite Ha, Hb. cbn [fst snd trace model_state].
      rewrite !requests_app. cbn [requests]. rewrite !map_app.
      repeat split; reflexivity.
    + destruct Ha as (a2 & a3 & Ha). destruct Hb as (b2 & b3 & Hb).
      rewrite Ha, Hb. cbn [fst snd trace model_state].
      rewrite !requests_app. cbn [requests]. rewrite !map_app.
      repeat split; reflexivity.
Qed.

Lemma sync_async_equivalence_witness :
  (forall q s,
      @agentxt unit (stub (inr mars_response)) q s
      = @gentxt unit (stub (inr mars_response)) q s)
  /\ fst (adiscover sample_template sample_system mars_component mars_params
           start)
     = fst (discover sample_template sample_system mars_component mars_params
              start).
Proof.
  split; [intros q s; reflexivity |].
  apply (sync_async_equivalence sample_template sample_system mars_component
           mars_params start).
  intros q s. reflexivity.
Defined.

(** C5 (error propagation).  When the prompt renders and the model's
    operation raises [e] on the request, [discover] and [adiscover] raise
    that same [e] and return no result; the model has been called once, with
    that request, and is left in the state in which it raised; the last thing
    in the trace is that call. *)
Theorem error_propagation {S} op template system (self : InterestDiscovery S)
    params w prompt e s' :
  format template
    (format_kwargs (InterestDiscoveryParams.field_of_topic params)
                   (InterestDiscoveryParams.keywords params))
  = inr prompt ->
  invoke (model self) op (request_for system params prompt) (model_state w)
  = (inl e, s') ->
  fst (run op template system self params w) = inl e
  /\ model_state (snd (run op template system self params w)) = s'
  /\ requests (trace (snd (run op template system self params w)))
     = (requests (trace w) ++ [(op, request_for system params prompt)])%list
  /\ last (trace (snd (run op template system self params w)))
     = Some (Called op (request_for system params prompt)).
Proof.
  intros Hf Hcall.
  split_run op template system self params w.
  rewrite Hf, Hcall in Hrun. rewrite Hrun. cbn [fst snd trace model_state].
  rewrite requests_app. cbn [requests].
  repeat split; try reflexivity.
  change [Logged (logger self) INFO m1;
          Called op (request_for system params prompt)]
    with ([Logged (logger self) INFO m1]
            ++ [Called op (request_for system params prompt)])%list.
  rewrite app_assoc. apply last_snoc.
Qed.

Lemma error_propagation_witness :
  format sample_template
    (format_kwargs "space exploration" "mars colonization risks")
  = inr "Field: space exploration. Keywords: mars colonization risks. Use {braces} freely."
  /\ invoke (model failing_component) Agentxt
       (request_for sample_system mars_params
          "Field: space exploration. Keywords: mars colonization risks. Use {braces} freely.")
       tt
     = (inl quota_error, tt)
  /\ fst (run Agentxt sample_template sample_system failing_component
           mars_params start)
     = inl quota_error.
Proof.
  assert (format sample_template
            (format_kwargs "space exploration" "mars colonization risks")
          = inr "Field: space exploration. Keywords: mars colonization risks. Use {braces} freely.")
    as H by (vm_compute; reflexivity).
  split; [exact H |]. split; [reflexivity |].
  apply (error_propagation Agentxt sample_template sample_system
           failing_component mars_params start _ quota_error tt H eq_refl).
Defined.

(** C6 (defaults).  A request built without [max_tokens] has
    [max_tokens = 4000], one built without [temperature] has
    [temperature = 0.7]; and whatever the request holds in these two fields
    is what the model receives, [max_tokens] as [max_new_tokens]. *)
Theorem defaults_forwarded {S} op template system (self : InterestDiscovery S)
    field_of_topic keywords max_tokens temperature w prompt :
  format template (format_kwargs field_of_topic keywords) = inr prompt ->
  InterestDiscoveryParams.max_tokens
    (InterestDiscoveryParams.new field_of_topic keywords None temperature)
  = Some 4000
  /\ InterestDiscoveryParams.temperature
       (InterestDiscoveryParams.new field_of_topic keywords max_tokens None)
     = 0.7%float
  /\ exists q,
      requests
        (trace (snd (run op template system self
                       (InterestDiscoveryParams.new field_of_topic keywords
                          max_tokens temperature) w)))
      = (requests (trace w) ++ [(op, q)])%list
      /\ LmGentxtParams.max_new_tokens q
         = InterestDiscoveryParams.max_tokens
             (InterestDiscoveryParams.new field_of_topic keywords max_tokens
                temperature)
      /\ LmGentxtParams.temperature q
         = InterestDiscoveryParams.temperature
             (InterestDiscoveryParams.new field_of_topic keywords max_tokens
                temperature).
Proof.
  intros Hf. split; [reflexivity | split; [reflexivity |]].
  set (params := InterestDiscoveryParams.new field_of_topic keywords
                   max_tokens temperature).
  split_run op template system self params w.
  change (InterestDiscoveryParams.field_of_topic params)
    with field_of_topic in Hrun.
  change (InterestDiscoveryParams.keywords params) with keywords in Hrun.
  rewrite Hf in Hrun.
  exists (request_for system params prompt).
  split; [| split; reflexivity].
  destruct (invoke _ _ _ _) as [[e | llm_result] s''].
  - rewrite Hrun. cbn [snd trace]. rewrite requests_app. reflexivity.
  - destruct Hrun as (m2 & m3 & Hrun).
    rewrite Hrun. cbn [snd trace]. rewrite requests_app. reflexivity.
Qed.

Lemma defaults_forwarded_witness :
  format sample_template (format_kwargs "chess" "openings")
  = inr "Field: chess. Keywords: openings. Use {braces} freely."
  /\ exists q,
      requests
        (trace (snd (run Gentxt sample_template sample_system mars_component
                       (InterestDiscoveryParams.new "chess" "openings" None
                          None) start)))
      = [(Gentxt, q)]
      /\ LmGentxtParams.max_new_tokens q = Some 4000
      /\ LmGentxtParams.temperature q = 0.7%float.
Proof.
  assert (format sample_template (format_kwargs "chess" "openings")
          = inr "Field: chess. Keywords: openings. Use {braces} freely.") as H
    by (vm_compute; reflexivity).
  split; [exact H |].
  destruct (defaults_forwarded Gentxt sample_template sample_system
              mars_component "chess" "openings" None None start _ H)
    as (_ & _ & q & Hq).
  exists q. exact Hq.
Defined.

(** C7, counterexample.  [InterestDiscoveryParams(field_of_topic="chess",
    keywords="openings", max_tokens=-5)] is built, and its [max_tokens] is
    [-5]. *)
Lemma max_tokens_not_checked :
  ~ max_tokens_positive
      (InterestDiscoveryParams.new "chess" "openings" (Some (Some (-5))) None).
Proof.
  intros H. specialize (H (-5) eq_refl). lia.
Qed.

(** C7, amended.  Construction keeps the [max_tokens] it is given, of any
    sign or [None], and checks nothing; the value used when [max_tokens] is
    left out, 4000, is positive. *)
Theorem max_tokens_as_given field_of_topic keywords max_tokens temperature :
  InterestDiscoveryParams.max_tokens
    (InterestDiscoveryParams.new field_of_topic keywords (Some max_tokens)
       temperature)
  = max_tokens
  /\ max_tokens_positive
       (InterestDiscoveryParams.new field_of_topic keywords None temperature).
Proof.
  split; [reflexivity |].
  intros n H. cbn in H. injection H as <-. lia.
Qed.

(** C8, counterexample.  [InterestDiscoveryResult(..., input_tokens=-1,
    output_tokens=-2)] is built with those counts; and against a model that
    answers with them, [discover] returns a result that has them. *)
Lemma token_counts_not_checked :
  ~ token_counts_nonnegative
      (InterestDiscoveryResult.new "chess" "openings" "Is 1. e4 best?" (-1)
         (-2))
  /\ exists r,
      fst (discover sample_template sample_system
             (init (stub (inr negative_response)) None) mars_params start)
      = inr r
      /\ InterestDiscoveryResult.input_tokens r = -1
      /\ InterestDiscoveryResult.output_tokens r = -2
      /\ ~ token_counts_nonnegative r.
Proof.
  split.
  - intros [H _]. cbn in H. lia.
  - eexists. split; [vm_compute; reflexivity |].
    split; [reflexivity | split; [reflexivity |]].
    intros [H _]. cbn in H. lia.
Qed.

(** C8, amended.  The result container keeps the counts it is given; the
    counts of a result returned by [discover] or [adiscover] are those of the
    model's response, so they are non-negative exactly when the response's
    are. *)
Theorem token_counts_follow_model {S} op template system
    (self : InterestDiscovery S) params w prompt llm_result s' :
  format template
    (format_kwargs (InterestDiscoveryParams.field_of_topic params)
                   (InterestDiscoveryParams.keywords params))
  = inr prompt ->
  invoke (model self) op (request_for system params prompt) (model_state w)
  = (inr llm_result, s') ->
  exists r,
    fst (run op template system self params w) = inr r
    /\ (token_counts_nonnegative r
        <-> 0 <= LmGentxtResult.input_tokens llm_result
            /\ 0 <= LmGentxtResult.output_tokens llm_result)
    /\ forall topic words analysis i o,
        InterestDiscoveryResult.input_tokens
          (InterestDiscoveryResult.new topic words analysis i o) = i
        /\ InterestDiscoveryResult.output_tokens
             (InterestDiscoveryResult.new topic words analysis i o) = o.
Proof.
  intros Hf Hcall.
  split_run op template system self params w.
  rewrite Hf, Hcall in Hrun. destruct Hrun as (m2 & m3 & Hrun).
  exists (result_for params llm_result). rewrite Hrun.
  split; [reflexivity |]. split; [reflexivity |].
  intros; split; reflexivity.
Qed.

Lemma token_counts_follow_model_witness :
  format sample_template
    (format_kwargs "space exploration" "mars colonization risks")
  = inr "Field: space exploration. Keywords: mars colonization risks. Use {braces} freely."
  /\ exists r,
      fst (run Gentxt sample_template sample_system mars_component mars_params
             start) = inr r
      /\ (token_counts_nonnegative r <-> 0 <= 120 /\ 0 <= 45).
Proof.
  assert (format sample_template
            (format_kwargs "space exploration" "mars colonization risks")
          = inr "Field: space exploration. Keywords: mars colonization risks. Use {braces} freely.")
    as H by (vm_compute; reflexivity).
  split; [exact H |].
  destruct (token_counts_follow_model Gentxt sample_template sample_system
              mars_component mars_params start _ mars_response tt H eq_refl)
    as (r & Hr & Hiff & _).
  exists r. split; [exact Hr | exact Hiff].
Defined.

(** C9 (scenario).  For the request with field of topic "space exploration",
    keywords "mars colonization risks", [max_tokens = 4000] and
    [temperature = 0.7], against a model whose [gentxt] answers "Is Mars
    colonization doomed?" with 120 input and 45 output tokens, [discover]
    returns the result with these five values, whatever the well-formed
    template. *)
Theorem mars_scenario {S} template system (self : InterestDiscovery S) w :
  well_formed template = true ->
  (forall q s, fst (@gentxt S (model self) q s) = inr mars_response) ->
  fst (discover template system self
         (InterestDiscoveryParams.new "space exploration"
            "mars colonization risks" (Some (Some 4000)) (Some 0.7%float)) w)
  = inr {| InterestDiscoveryResult.field_of_topic := "space exploration";
           InterestDiscoveryResult.keywords := "mars colonization risks";
           InterestDiscoveryResult.interest_analysis :=
             "Is Mars colonization doomed?";
           InterestDiscoveryResult.input_tokens := 120;
           InterestDiscoveryResult.output_tokens := 45 |}.
Proof.
  intros Hwf Hstub.
  destruct (well_formed_pieces template Hwf) as (ps & Hps & Hk).
  set (params := InterestDiscoveryParams.new _ _ _ _).
  pose proof (format_well_formed template
                (InterestDiscoveryParams.field_of_topic params)
                (InterestDiscoveryParams.keywords params) ps Hps Hk) as Hf.
  change (discover template system self params w)
    with (run Gentxt template system self params w).
  split_run Gentxt template system self params w.
  rewrite Hf in Hrun. cbn [invoke] in Hrun.
  specialize (Hstub
    (request_for system params
       (join (map (substitute (InterestDiscoveryParams.field_of_topic params)
                     (InterestDiscoveryParams.keywords params)) ps)))
    (model_state w)).
  destruct (gentxt _ _) as [[e | llm_result] s''];
    cbn [fst] in Hstub; [discriminate |].
  injection Hstub as ->.
  destruct Hrun as (m2 & m3 & Hrun). rewrite Hrun. reflexivity.
Qed.

Lemma mars_scenario_witness :
  well_formed sample_template = true
  /\ fst (discover sample_template sample_system mars_component mars_params
           start)
     = inr mars_result.
Proof.
  split; [vm_compute; reflexivity |].
  apply (mars_scenario sample_template sample_system mars_component start).
  - vm_compute; reflexivity.
  - intros q s. reflexivity.
Defined.

(** C10 (no validation of the strings).  For a template that splits into
    pieces naming only the two slots and for any two strings, empty ones
    included, rendering succeeds and puts the strings into the slots as they
    are; the model is called once with that prompt; an error of the call can
    only be the model's own, and a response of the model gives a result that
    echoes the two strings. *)
Theorem no_local_validation {S} op template system (self : InterestDiscovery S)
    field_of_topic keywords max_tokens temperature w ps :
  template_pieces template = inr ps ->
  forallb known_slot ps = true ->
  let params :=
    InterestDiscoveryParams.new field_of_topic keywords max_tokens temperature
  in
  let prompt := join (map (substitute field_of_topic keywords) ps) in
  let q := request_for system params prompt in
  format template (format_kwargs field_of_topic keywords) = inr prompt
  /\ requests (trace (snd (run op template system self params w)))
     = (requests (trace w) ++ [(op, q)])%list
  /\ match fst (invoke (model self) op q (model_state w)) with
     | inl e => fst (run op template system self params w) = inl e
     | inr llm_result =>
         exists r,
           fst (run op template system self params w) = inr r
           /\ InterestDiscoveryResult.field_of_topic r = field_of_topic
           /\ InterestDiscoveryResult.keywords r = keywords
     end.
Proof.
  intros Hps Hk params prompt q.
  pose proof (format_well_formed template field_of_topic keywords ps Hps Hk)
    as Hf.
  split; [exact Hf |].
  split_run op template system self params w.
  change (InterestDiscoveryParams.field_of_topic params)
    with field_of_topic in Hrun.
  change (InterestDiscoveryParams.keywords params) with keywords in Hrun.
  rewrite Hf in Hrun. fold prompt q in Hrun.
  destruct (invoke _ _ _ _) as [[e | llm_result] s'']; cbn [fst].
  - rewrite Hrun. cbn [fst snd trace]. rewrite requests_app.
    split; reflexivity.
  - destruct Hrun as (m2 & m3 & Hrun). rewrite Hrun.
    cbn [fst snd trace]. rewrite requests_app.
    split; [reflexivity |].
    exists (result_for params llm_result). repeat split; reflexivity.
Qed.

Lemma no_local_validation_witness :
  template_pieces "[{field_of_topic}|{keywords}]"
  = inr [Text "["; Slot "field_of_topic"; Text "|"; Slot "keywords"; Text "]"]
  /\ format "[{field_of_topic}|{keywords}]" (format_kwargs "" "") = inr "[|]"
  /\ exists r,
      fst (run Agentxt "[{field_of_topic}|{keywords}]" sample_system
             mars_component (InterestDiscoveryParams.new "" "" None None)
             start)
      = inr r
      /\ InterestDiscoveryResult.field_of_topic r = ""
      /\ InterestDiscoveryResult.keywords r = "".
Proof.
  split; [vm_compute; reflexivity |].
  destruct (no_local_validation Agentxt "[{field_of_topic}|{keywords}]"
              sample_system mars_component "" "" None None start
              [Text "["; Slot "field_of_topic"; Text "|"; Slot "keywords";
               Text "]"])
    as (Hf & _ & Hr).
  - vm_compute; reflexivity.
  - vm_compute; reflexivity.
  - split; [exact Hf | exact Hr].
Defined.

(** ** Further properties of the two entry points *)


(** X1 (a template that does not render).  When [format] raises [e] on the
    template, the call raises [e]; the model is not called and keeps its
    state; the start message is the only thing added to the trace. *)
Theorem render_failure_stops_call {S} op template system
    (self : InterestDiscovery S) params w e :
  format template
    (format_kwargs (InterestDiscoveryParams.field_of_topic params)
                   (InterestDiscoveryParams.keywords params))
  = inl e ->
  fst (run op template system self params w) = inl e
  /\ model_state (snd (run op template system self params w)) = model_state w
  /\ requests (trace (snd (run op template system self params w)))
     = requests (trace w)
  /\ exists m,
      trace (snd (run op template system self params w))
      = (trace w ++ [Logged (logger self) INFO m])%list.
Proof.
  intros Hf.
  split_run op template system self params w.
  rewrite Hf in Hrun. rewrite Hrun. cbn [fst snd trace model_state].
  rewrite requests_app. cbn [requests]. rewrite app_nil_r.
  repeat split; try reflexivity. exists m1. reflexivity.
Qed.

Lemma render_failure_stops_call_witness :
  format "{topic}: {keywords}"
    (format_kwargs "space exploration" "mars colonization risks")
  = inl (KeyError "topic")
  /\ fst (run Gentxt "{topic}: {keywords}" sample_system mars_component
           mars_params start)
     = inl (KeyError "topic")
  /\ requests
       (trace (snd (run Gentxt "{topic}: {keywords}" sample_system
                      mars_component mars_params start)))
     = [].
Proof.
  assert (format "{topic}: {keywords}"
            (format_kwargs "space exploration" "mars colonization risks")
          = inl (KeyError "topic")) as H by (vm_compute; reflexivity).
  split; [exact H |].
  destruct (render_failure_stops_call Gentxt "{topic}: {keywords}"
              sample_system mars_component mars_params start
              (KeyError "topic") H) as (Hout & _ & Hreq & _).
  split; [exact Hout | exact Hreq].
Defined.

(** *** Rendering fails or succeeds by the template alone *)







(** *** The first slot that cannot be filled *)








(** *** A template without slots *)

Lemma markup_brace_free kwargs s :
  brace_free s = true ->
  exists parts,
    markup (render_piece kwargs) None s = inr parts /\ join parts = s.
Proof.
  induction s as [| c s IH]; intros H.
  - exists []. split; reflexivity.
  - cbn [brace_free] in H. apply andb_true_iff in H as [Hc Hs].
    apply negb_true_iff in Hc.
    destruct (IH Hs) as (parts & Hparts & Hjoin).
    exists (String c "" :: parts). rewrite markup_text, Hc.
    cbn [render_piece]. rewrite Hparts. split; [reflexivity |].
    change (join (String c "" :: parts)) with (String c (join parts)).
    rewrite Hjoin. reflexivity.
Qed.

(** X5 (a template without braces).  A template that contains no brace is
    the prompt: rendering returns it unchanged, and the one request the call
    makes carries it, whatever the request's two strings. *)
Theorem plain_template_is_the_prompt {S} op template system
    (self : InterestDiscovery S) params w :
  brace_free template = true ->
  format template
    (format_kwargs (InterestDiscoveryParams.field_of_topic params)
                   (InterestDiscoveryParams.keywords params))
  = inr template
  /\ requests (trace (snd (run op template system self params w)))
     = (requests (trace w) ++ [(op, request_for system params template)])%list.
Proof.
  intros Hplain.
  assert (format template
            (format_kwargs (InterestDiscoveryParams.field_of_topic params)
                           (InterestDiscoveryParams.keywords params))
          = inr template) as Hf.
  { unfold format.
    destruct (markup_brace_free
                (format_kwargs (InterestDiscoveryParams.field_of_topic params)
                               (InterestDiscoveryParams.keywords params))
                template Hplain) as (parts & -> & ->).
    reflexivity. }
  split; [exact Hf |].
  split_run op template system self params w.
  rewrite Hf in Hrun.
  destruct (invoke _ _ _ _) as [[e | llm_result] s''].
  - rewrite Hrun. cbn [snd trace]. rewrite requests_app. reflexivity.
  - destruct Hrun as (m2 & m3 & Hrun).
    rewrite Hrun. cbn [snd trace]. rewrite requests_app. reflexivity.
Qed.

Lemma plain_template_is_the_prompt_witness :
  brace_free "Name one open question." = true
  /\ requests
       (trace (snd (run Gentxt "Name one open question." sample_system
                      mars_component mars_params start)))
     = [(Gentxt,
         request_for sample_system mars_params "Name one open question.")].
Proof.
  split; [vm_compute; reflexivity |].
  apply (plain_template_is_the_prompt Gentxt "Name one open question."
           sample_system mars_component mars_params start).
  vm_compute; reflexivity.
Defined.

(** *** What a call leaves in the trace *)

(** X6 (one call to the model, of the entry point's own kind).  A call makes
    no request to the model when the prompt does not render, and exactly one
    when it does, whether the model then answers or raises; [discover]
    requests [gentxt] only and [adiscover] requests [agentxt] only. *)
Theorem one_call_when_rendered {S} op template system
    (self : InterestDiscovery S) params w :
  match format template
          (format_kwargs (InterestDiscoveryParams.field_of_topic params)
                         (InterestDiscoveryParams.keywords params)) with
  | inl _ =>
      requests (trace (snd (run op template system self params w)))
      = requests (trace w)
  | inr prompt =>
      requests (trace (snd (run op template system self params w)))
      = (requests (trace w) ++ [(op, request_for system params prompt)])%list
  end.
Proof.
  split_run op template system self params w.
  destruct (format _ _) as [e | prompt].
  - rewrite Hrun. cbn [snd trace]. rewrite requests_app. apply app_nil_r.
  - destruct (invoke _ _ _ _) as [[e | llm_result] s''].
    + rewrite Hrun. cbn [snd trace]. rewrite requests_app. reflexivity.
    + destruct Hrun as (m2 & m3 & Hrun).
      rewrite Hrun. cbn [snd trace]. rewrite requests_app. reflexivity.
Qed.


(** X8 (success is logged for a result only).  Among the events a call adds,
    there is one of level SUCCESS exactly when the call returns a result: a
    call that raises, at rendering or in the model, logs no success. *)
Theorem success_logged_iff_result {S} op template system
    (self : InterestDiscovery S) params w :
  exists evs,
    trace (snd (run op template system self params w))
    = (trace w ++ evs)%list
    /\ ((exists c m, In (Logged c SUCCESS m) evs)
        <-> exists r, fst (run op template system self params w) = inr r).
Proof.
  split_run op template system self params w.
  destruct (format _ _) as [e | prompt].
  - rewrite Hrun. eexists. split; [reflexivity |]. cbn [fst].
    split.
    + intros (c & m & [H | []]). discriminate.
    + intros [r H]. discriminate.
  - destruct (invoke _ _ _ _) as [[e | llm_result] s''].
    + rewrite Hrun. eexists. split; [reflexivity |]. cbn [fst].
      split.
      * intros (c & m & [H | [H | []]]); discriminate.
      * intros [r H]. discriminate.
    + destruct Hrun as (m2 & m3 & Hrun).
      rewrite Hrun. eexists. split; [reflexivity |]. cbn [fst].
      split.
      * intros _. eexists. reflexivity.
      * intros _. exists (logger self), m2. cbn. auto.
Qed.

(** X9 (the completion message).  When a call returns a result, the last
    event of the trace is the INFO message "Generated n tokens of analysis",
    where n is the result's [output_tokens] in decimal. *)
Theorem completion_message_counts {S} op template system
    (self : InterestDiscovery S) params w r w' :
  run op template system self params w = (inr r, w') ->
  last (trace w')
  = Some (Logged (logger self) INFO
            ("Generated "
               ++ str_of_int (InterestDiscoveryResult.output_tokens r)
               ++ " tokens of analysis")).
Proof.
  destruct op; cbn [run];
    [unfold discover | unfold adiscover];
    unfold bind, logger_info, logger_success, emit, lift, call, raise, ret,
      InterestDiscoveryResult.new;
    cbn [trace model_state];
    (destruct (format _ _) as [e | prompt]; [discriminate |]);
    cbn [trace model_state];
    (destruct (invoke _ _ _ _) as [[e | llm_result] s'']; [discriminate |]);
    cbn [trace model_state];
    intros H; injection H as <- <-; cbn [trace];
    apply last_snoc.
Qed.

Lemma completion_message_counts_witness :
  run Gentxt sample_template sample_system
    (init (stub (inr negative_response)) (Some "discovery")) mars_params start
  = (inr (result_for mars_params negative_response),
     snd (run Gentxt sample_template sample_system
            (init (stub (inr negative_response)) (Some "discovery"))
            mars_params start))
  /\ last (trace (snd (run Gentxt sample_template sample_system
                         (init (stub (inr negative_response))
                            (Some "discovery"))
                         mars_params start)))
     = Some (Logged "discovery" INFO "Generated -2 tokens of analysis").
Proof.
  assert (run Gentxt sample_template sample_system
            (init (stub (inr negative_response)) (Some "discovery"))
            mars_params start
          = (inr (result_for mars_params negative_response),
             snd (run Gentxt sample_template sample_system
                    (init (stub (inr negative_response)) (Some "discovery"))
                    mars_params start))) as H
    by (vm_compute; reflexivity).
  split; [exact H |].
  exact (completion_message_counts Gentxt sample_template sample_system
           (init (stub (inr negative_response)) (Some "discovery"))
           mars_params start _ _ H).
Defined.

(** X10 (the start message comes first, whatever follows).  The first event
    a call adds is its start message, at level INFO, naming the request's
    field of topic and keywords; it is there also when the call then raises.
    [adiscover] says "async" in it, [discover] does not. *)
Theorem start_message_first {S} template system (self : InterestDiscovery S)
    params w :
  (exists evs,
      trace (snd (discover template system self params w))
      = (trace w
           ++ Logged (logger self) INFO
                ("Starting interest discovery for field: "
                   ++ InterestDiscoveryParams.field_of_topic params
                   ++ ", keywords: "
                   ++ InterestDiscoveryParams.keywords params)
              :: evs)%list)
  /\ (exists evs,
        trace (snd (adiscover template system self params w))
        = (trace w
             ++ Logged (logger self) INFO
                  ("Starting async interest discovery for field: "
                     ++ InterestDiscoveryParams.field_of_topic params
                     ++ ", keywords: "
                     ++ InterestDiscoveryParams.keywords params)
                :: evs)%list).
Proof.
  split;
    [unfold discover | unfold adiscover];
    unfold bind, logger_info, logger_success, emit, lift, call, raise, ret;
    cbn [trace model_state];
    (destruct (format _ _) as [e | prompt];
      [exists []; reflexivity |]);
    cbn [trace model_state];
    (destruct (invoke _ _ _ _) as [[e | llm_result] s''];
      cbn [snd trace model_state];
      eexists; rewrite <- !app_assoc; reflexivity).
Qed.

(** X11 (the component name on every message).  Every message a call logs
    carries the name the component was built with: the [log_name] given to
    the constructor, or "interest_discovery" when none is given. *)
Theorem messages_carry_log_name {S} op template system (m : LmBasis S)
    log_name params w :
  exists evs,
    trace (snd (run op template system (init m log_name) params w))
    = (trace w ++ evs)%list
    /\ forall c lvl message,
        In (Logged c lvl message) evs ->
        c = match log_name with
            | Some name => name
            | None => "interest_discovery"
            end.
Proof.
  split_run op template system (init m log_name) params w.
  assert (logger (init m log_name)
          = match log_name with
            | Some name => name
            | None => "interest_discovery"
            end) as Hname by (destruct log_name; reflexivity).
  rewrite Hname in Hrun.
  destruct (format _ _) as [e | prompt].
  - rewrite Hrun. eexists. split; [reflexivity |].
    intros c lvl message [H | []]. congruence.
  - destruct (invoke _ _ _ _) as [[e | llm_result] s''].
    + rewrite Hrun. eexists. split; [reflexivity |].
      intros c lvl message [H | [H | []]]; congruence.
    + destruct Hrun as (m2 & m3 & Hrun).
      rewrite Hrun. eexists. split; [reflexivity |].
      intros c lvl message [H | [H | [H | [H | []]]]]; congruence.
Qed.

(** *** When the prompt renders *)





(** X13 (where an error comes from).  An error raised by a call is either
    the error [format] raised on the template, or the error the model raised
    on the request built from the rendered prompt: the component raises
    nothing of its own. *)
Theorem error_provenance {S} op template system (self : InterestDiscovery S)
    params w e :
  fst (run op template system self params w) = inl e ->
  format template
    (format_kwargs (InterestDiscoveryParams.field_of_topic params)
                   (InterestDiscoveryParams.keywords params))
  = inl e
  \/ exists prompt,
      format template
        (format_kwargs (InterestDiscoveryParams.field_of_topic params)
                       (InterestDiscoveryParams.keywords params))
      = inr prompt
      /\ fst (invoke (model self) op (request_for system params prompt)
                (model_state w))
         = inl e.
Proof.
  intros H.
  split_run op template system self params w.
  destruct (format _ _) as [e' | prompt].
  - rewrite Hrun in H. cbn [fst] in H. left. congruence.
  - right. exists prompt. split; [reflexivity |].
    destruct (invoke _ _ _ _) as [[e' | llm_result] s''].
    + rewrite Hrun in H. cbn [fst] in H |- *. congruence.
    + destruct Hrun as (m2 & m3 & Hrun). rewrite Hrun in H. discriminate.
Qed.

Lemma error_provenance_witness :
  fst (run Agentxt sample_template sample_system failing_component mars_params
         start)
  = inl quota_error
  /\ (format sample_template
        (format_kwargs "space exploration" "mars colonization risks")
      = inl quota_error
      \/ exists prompt,
          format sample_template
            (format_kwargs "space exploration" "mars colonization risks")
          = inr prompt
          /\ fst (invoke (model failing_component) Agentxt
                    (request_for sample_system mars_params prompt) tt)
             = inl quota_error).
Proof.
  assert (fst (run Agentxt sample_template sample_system failing_component
                 mars_params start)
          = inl quota_error) as H by (vm_compute; reflexivity).
  split; [exact H |].
  exact (error_provenance Agentxt sample_template sample_system
           failing_component mars_params start quota_error H).
Defined.
